(** * Sauron SkyRenderer: the projector interface (Projector.hpp)

    A shallow embedding of [Sauron::Projector], its parameter block
    [ProjectorParams], the [ModelViewTransform] interface with its
    [Mat4Transform] implementation and the [ProjectorPerspective]
    variant, followed by the properties their specification states.

    The header holds the data model, the inline accessors and the
    declarations of every other member function.  Inline bodies are
    embedded statement by statement.  Member functions that the header
    only declares are modelled from the specification; each such
    definition says so in its doc comment. *)

From Stdlib Require Import ZArith List Bool.
From Stdlib Require Import Floats.SpecFloat.
From Stdlib Require Import Reals Lra.
Import ListNotations.

Set Implicit Arguments.

(** ** Numbers *)

(** The C++ type [float]: IEEE 754 binary32, through the Standard
    Library's executable specification of binary floating point. *)
Module Float32.

Definition prec : Z := 24.
Definition emax : Z := 128.

Definition float : Type := spec_float.

(** Conversion of an [int] literal to [float] (round to nearest even,
    as the implicit conversion of C++ does). *)
Definition of_int (z : Z) : float := binary_normalize prec emax z 0 false.

Definition ltb (a b : float) : bool := SFltb a b.
Definition eqb (a b : float) : bool := SFeqb a b.

Definition is_finite (f : float) : bool :=
  match f with
  | S754_zero _ | S754_finite _ _ _ => true
  | S754_infinity _ | S754_nan => false
  end.

(** The real number a finite [float] denotes; infinities and NaN
    denote no real number and are sent to 0. *)
Definition to_R (f : float) : R :=
  match f with
  | S754_zero _ => 0%R
  | S754_finite s m e =>
      let mag :=
        match e with
        | Z0 => IZR (Zpos m)
        | Zpos p => IZR (Zpos m * Z.pow_pos 2 p)
        | Zneg p => (IZR (Zpos m) / IZR (Z.pow_pos 2 p))%R
        end in
      if s then (- mag)%R else mag
  | S754_infinity _ | S754_nan => 0%R
  end.

(** [f] is the finite [float] whose value is the integer [z]. *)
Definition represents (f : float) (z : Z) : Prop :=
  is_finite f = true /\ to_R f = IZR z.

End Float32.

(** ** glm value types *)

(** [glm::tvec4<int>] *)
Record ivec4 : Type := mk_ivec4 { ix : Z; iy : Z; iz : Z; iw : Z }.

(** [glm::vec2] *)
Record vec2 : Type := mk_vec2 { fx : Float32.float; fy : Float32.float }.

(** ** ProjectorParams *)

(** [struct Projector::ProjectorParams]: the fields in declaration
    order. *)
Record ProjectorParams : Type := mk_ProjectorParams {
  viewport_xy_wh : ivec4;                  (* pos x, pos y, width, height *)
  fov : Float32.float;                     (* FOV in degrees *)
  z_near : Float32.float;                  (* near clipping plane *)
  z_far : Float32.float;                   (* far clipping plane *)
  viewport_center : vec2;                  (* viewport center in screen pixel *)
  viewport_fov_diameter : Float32.float    (* diameter of the FOV disk in pixel *)
}.

(** The default member initializers of [ProjectorParams]: the value of
    a default-constructed [ProjectorParams]. *)
Definition ProjectorParams_default : ProjectorParams :=
  {| viewport_xy_wh := mk_ivec4 0 0 256 256;
     fov := Float32.of_int 60;
     z_near := Float32.of_int 0;
     z_far := Float32.of_int 0;
     viewport_center := mk_vec2 (Float32.of_int 128) (Float32.of_int 128);
     viewport_fov_diameter := Float32.of_int 0 |}.

(** ** Inline member function bodies *)

(** A body is a sequence of statements over the object [this : S].
    Two statement forms occur in the header: an expression statement,
    whose value is discarded, and [return e;]. *)
Inductive stmt (S A : Type) : Type :=
| SExpr : forall B : Type, (S -> B) -> stmt S A
| SReturn : (S -> A) -> stmt S A.

Arguments SExpr {S A B} _.
Arguments SReturn {S A} _.

(** Running the body of a function whose return type is [A].  [None]:
    control reached the closing brace without executing a [return], so
    the call yields no value (for a value-returning function the C++
    standard leaves the behaviour undefined). *)
Fixpoint run_body {S A : Type} (b : list (stmt S A)) (this : S) : option A :=
  match b with
  | [] => None
  | SExpr _ :: rest => run_body rest this
  | SReturn e :: _ => Some (e this)
  end.

(** ** Vectors and matrices in exact arithmetic

    The header declares, and does not define, every function that
    computes with [double].  The models of those functions come in two
    readings.  In this part a [double] is the real number it denotes
    and arithmetic is exact: what the functions compute
    mathematically.  The part on double precision further down has
    IEEE 754 binary64 values and rounds every operation. *)

Local Open Scope R_scope.

(** [glm::dvec3] *)
Record dvec3 : Type := mk_dvec3 { dx : R; dy : R; dz : R }.

(** [glm::dvec4] *)
Record dvec4 : Type := mk_dvec4 { x4 : R; y4 : R; z4 : R; w4 : R }.

(** [glm::dmat4]: four columns, as glm stores them. *)
Record dmat4 : Type := mk_dmat4 {
  col0 : dvec4; col1 : dvec4; col2 : dvec4; col3 : dvec4
}.

(** Euclidean length, [sqrt(v[0]*v[0]+v[1]*v[1]+v[2]*v[2])]. *)
Definition length3 (v : dvec3) : R :=
  sqrt (dx v * dx v + dy v * dy v + dz v * dz v).



(** Row and column indices of a [dmat4]. *)
Inductive idx : Type := I0 | I1 | I2 | I3.

Definition comp (v : dvec4) (r : idx) : R :=
  match r with I0 => x4 v | I1 => y4 v | I2 => z4 v | I3 => w4 v end.

Definition column (m : dmat4) (c : idx) : dvec4 :=
  match c with I0 => col0 m | I1 => col1 m | I2 => col2 m | I3 => col3 m end.

(** [m[c][r]]: glm indexes the column first. *)
Definition entry (m : dmat4) (c r : idx) : R := comp (column m c) r.

Definition build_vec (f : idx -> R) : dvec4 :=
  mk_dvec4 (f I0) (f I1) (f I2) (f I3).

Definition build_mat (f : idx -> idx -> R) : dmat4 :=
  mk_dmat4 (build_vec (f I0)) (build_vec (f I1))
           (build_vec (f I2)) (build_vec (f I3)).

(** [glm::dvec4(v, w)] and [glm::dvec3(v4)]. *)
Definition extend (v : dvec3) (w : R) : dvec4 := mk_dvec4 (dx v) (dy v) (dz v) w.
Definition xyz (v : dvec4) : dvec3 := mk_dvec3 (x4 v) (y4 v) (z4 v).

(** [m * v], matrix times column vector. *)
Definition mat_mul_vec (m : dmat4) (v : dvec4) : dvec4 :=
  build_vec (fun r =>
    entry m I0 r * x4 v + entry m I1 r * y4 v +
    entry m I2 r * z4 v + entry m I3 r * w4 v).

(** [a * b], matrix product: column [c] of the product is [a] times
    column [c] of [b]. *)
Definition mat_mul (a b : dmat4) : dmat4 :=
  mk_dmat4 (mat_mul_vec a (col0 b)) (mat_mul_vec a (col1 b))
           (mat_mul_vec a (col2 b)) (mat_mul_vec a (col3 b)).

(** The three indices other than [i], in increasing order. *)
Definition others (i : idx) : idx * idx * idx :=
  match i with
  | I0 => (I1, I2, I3)
  | I1 => (I0, I2, I3)
  | I2 => (I0, I1, I3)
  | I3 => (I0, I1, I2)
  end.

Definition det3 (a b c d e f g h i : R) : R :=
  a * (e * i - f * h) - b * (d * i - f * g) + c * (d * h - e * g).

(** Determinant of [m] with column [c] and row [r] struck out. *)
Definition minor (m : dmat4) (c r : idx) : R :=
  let '(c1, c2, c3) := others c in
  let '(r1, r2, r3) := others r in
  det3 (entry m c1 r1) (entry m c2 r1) (entry m c3 r1)
       (entry m c1 r2) (entry m c2 r2) (entry m c3 r2)
       (entry m c1 r3) (entry m c2 r3) (entry m c3 r3).

Definition idx_odd (i : idx) : bool :=
  match i with I0 | I2 => false | I1 | I3 => true end.

Definition cofactor (m : dmat4) (c r : idx) : R :=
  if xorb (idx_odd c) (idx_odd r) then - minor m c r else minor m c r.

(** [glm::determinant(m)], expanded along row 0. *)
Definition determinant (m : dmat4) : R :=
  entry m I0 I0 * cofactor m I0 I0 + entry m I1 I0 * cofactor m I1 I0 +
  entry m I2 I0 * cofactor m I2 I0 + entry m I3 I0 * cofactor m I3 I0.

(** [glm::inverse(m)]: the transposed cofactor matrix over the
    determinant; a division by zero where the determinant is 0. *)
Definition inverse (m : dmat4) : dmat4 :=
  build_mat (fun c r => cofactor m r c / determinant m).


(** ** ModelViewTransform *)

Module ModelViewTransform.

(** The pure virtual member functions of
    [class Projector::ModelViewTransform].  A member function that
    works in place on [glm::dvec3& v] is a function from the old to the
    new value of [v]; the non-const [Combine] returns the new state of
    the object. *)
Class interface (T : Type) : Type := {
  Forward : T -> dvec3 -> dvec3;
  Backward : T -> dvec3 -> dvec3;
  Combine : T -> dmat4 -> T;
  Clone : T -> T;
  GetTransformMatrix : T -> dmat4
}.

End ModelViewTransform.

(** ** Mat4Transform *)

Module Mat4Transform.

(** The data member of [class Projector::Mat4Transform]. *)
Record state : Type := mk_state { transform_matrix_ : dmat4 }.

(** Modelled from the spec: the body of the constructor
    [Mat4Transform(glm::dmat4 const & m)] is not in the header.  The
    "state is a single matrix", the one passed in. *)
Definition new (m : dmat4) : state := mk_state m.

(** Modelled from the spec: the body of [Mat4Transform::Forward] is
    not in the header.  "Forward multiplies vector by matrix"; the
    transform is "a 4x4-matrix-backed affine transform", so [v] is
    extended by the homogeneous coordinate 1. *)
Definition Forward (this : state) (v : dvec3) : dvec3 :=
  xyz (mat_mul_vec (transform_matrix_ this) (extend v 1)).

(** Modelled from the spec: the body of [Mat4Transform::Backward] is
    not in the header.  "Backward multiplies by the matrix inverse". *)
Definition Backward (this : state) (v : dvec3) : dvec3 :=
  xyz (mat_mul_vec (inverse (transform_matrix_ this)) (extend v 1)).

(** Modelled from the spec: the body of [Mat4Transform::Combine] is
    not in the header.  "Combine right-multiplies the stored matrix by
    the argument". *)
Definition Combine (this : state) (m : dmat4) : state :=
  mk_state (mat_mul (transform_matrix_ this) m).

(** Modelled from the spec: the body of [Mat4Transform::Clone] is not
    in the header.  "Deep copy; returned object is independently
    mutable": a value equal to [this]. *)
Definition Clone (this : state) : state :=
  mk_state (transform_matrix_ this).

(** Modelled from the spec: the body of
    [Mat4Transform::GetTransformMatrix] is not in the header.
    "Read-only snapshot of the current equivalent matrix". *)
Definition GetTransformMatrix (this : state) : dmat4 :=
  transform_matrix_ this.

#[global] Instance implements : ModelViewTransform.interface state := {|
  ModelViewTransform.Forward := Forward;
  ModelViewTransform.Backward := Backward;
  ModelViewTransform.Combine := Combine;
  ModelViewTransform.Clone := Clone;
  ModelViewTransform.GetTransformMatrix := GetTransformMatrix
|}.

End Mat4Transform.

(** ** Projector *)

Module Projector.

(** The data members of [class Projector]; [MVT] is the type of the
    object behind [std::shared_ptr<ModelViewTransform>]. *)
Record state (MVT : Type) : Type := mk_state {
  model_view_transform_ : MVT;
  params_ : ProjectorParams;
  pixel_per_rad_ : Float32.float;
  one_over_z_near_minus_far_ : Float32.float
}.

(** Modelled from the spec: the body of the constructor
    [explicit Projector(std::shared_ptr<ModelViewTransform> const &)]
    is not in the header.  It "takes ownership of a
    ModelViewTransform"; the other members have the default member
    initializers of the header, and this is the state before [Init]. *)
Definition new {MVT : Type} (model_view : MVT) : state MVT :=
  {| model_view_transform_ := model_view;
     params_ := ProjectorParams_default;
     pixel_per_rad_ := Float32.of_int 0;
     one_over_z_near_minus_far_ := Float32.of_int 0 |}.

(** The pure virtual member functions of [class Projector].  In-place
    functions on [glm::dvec3& v] return the new value of [v] with the
    validity flag; [float] arguments and results of the conversion
    functions are the reals they denote. *)
Class variant (MVT : Type) : Type := {
  GetMaxFov : state MVT -> option Float32.float;
  Forward : state MVT -> dvec3 -> dvec3 * bool;
  Backward : state MVT -> dvec3 -> dvec3 * bool;
  DeltaZoom : state MVT -> R -> R;
  FovToViewScalingFactor : state MVT -> R -> R;
  ViewScalingFactorToFov : state MVT -> R -> R
}.

Section Members.
Variable MVT : Type.

(** [glm::tvec4<int> const & GetViewport() const] *)
Definition GetViewport_body : list (stmt (state MVT) ivec4) :=
  [ SReturn (fun this => viewport_xy_wh (params_ this)) ].
Definition GetViewport := run_body GetViewport_body.

(** [int GetViewportPosX() const] *)
Definition GetViewportPosX_body : list (stmt (state MVT) Z) :=
  [ SReturn (fun this => ix (viewport_xy_wh (params_ this))) ].
Definition GetViewportPosX := run_body GetViewportPosX_body.

(** [int GetViewportPosY() const] *)
Definition GetViewportPosY_body : list (stmt (state MVT) Z) :=
  [ SReturn (fun this => iy (viewport_xy_wh (params_ this))) ].
Definition GetViewportPosY := run_body GetViewportPosY_body.

(** [int GetViewportWidth() const]: component [z] of the vector. *)
Definition GetViewportWidth_body : list (stmt (state MVT) Z) :=
  [ SReturn (fun this => iz (viewport_xy_wh (params_ this))) ].
Definition GetViewportWidth := run_body GetViewportWidth_body.

(** [int GetViewportHeight() const]: component [w] of the vector. *)
Definition GetViewportHeight_body : list (stmt (state MVT) Z) :=
  [ SReturn (fun this => iw (viewport_xy_wh (params_ this))) ].
Definition GetViewportHeight := run_body GetViewportHeight_body.

(** [float GetFov() const { params_.fov; }] *)
Definition GetFov_body : list (stmt (state MVT) Float32.float) :=
  [ SExpr (fun this => fov (params_ this)) ].
Definition GetFov := run_body GetFov_body.

(** [std::shared_ptr<ModelViewTransform> const & GetModelViewTransform() const] *)
Definition GetModelViewTransform_body : list (stmt (state MVT) MVT) :=
  [ SReturn (fun this => model_view_transform_ this) ].
Definition GetModelViewTransform := run_body GetModelViewTransform_body.

End Members.

End Projector.

(** ** ProjectorPerspective *)

Module ProjectorPerspective.

Section Members.
Variable MVT : Type.

(** [float GetMaxFov() const override { return 120; }] *)
Definition GetMaxFov_body : list (stmt (Projector.state MVT) Float32.float) :=
  [ SReturn (fun _ => Float32.of_int 120) ].
Definition GetMaxFov := run_body GetMaxFov_body.

(** The value [Forward] leaves in [v] when it fails: "unspecified but
    deterministic", a function of the argument. *)
Variable Forward_failed : dvec3 -> dvec3.

(** The header declares [DeltaZoom] and the specification gives no
    formula for it. *)
Variable DeltaZoom_body : R -> R.

(** Modelled from the spec: the body of
    [ProjectorPerspective::Forward] is not in the header.  "A standard
    perspective projection where a 3D direction is projected onto a
    plane at unit distance", with the optical axis along [(0,0,-1)],
    "preserving the z holds original length contract"; it "returns
    false when the direction cannot be projected", which is when the
    direction has no positive depth along the axis. *)
Definition Forward (this : Projector.state MVT) (v : dvec3) : dvec3 * bool :=
  let r := sqrt (dx v * dx v + dy v * dy v + dz v * dz v) in
  if Rlt_dec (dz v) 0
  then (mk_dvec3 (dx v / - dz v) (dy v / - dz v) r, true)
  else (Forward_failed v, false).

(** Modelled from the spec: the body of
    [ProjectorPerspective::Backward] is not in the header.  "Inverse of
    Forward": the unit direction through the point [(x, y)] of the
    plane at unit distance. *)
Definition Backward (this : Projector.state MVT) (v : dvec3) : dvec3 * bool :=
  let n := sqrt (1 + dx v * dx v + dy v * dy v) in
  (mk_dvec3 (dx v / n) (dy v / n) (- 1 / n), true).

(** Modelled from the spec: the body of
    [ProjectorPerspective::FovToViewScalingFactor] is not in the
    header, which documents it as "Convert a Field of View radius value
    in radians in ViewScalingFactor".  "Scale factor = tan(fov/2)" for
    a FOV diameter [fov]: the tangent of the radius passed in. *)
Definition FovToViewScalingFactor (this : Projector.state MVT) (fov : R) : R :=
  tan fov.

(** Modelled from the spec: the body of
    [ProjectorPerspective::ViewScalingFactorToFov] is not in the
    header, which documents it as "Convert a ViewScalingFactor value in
    Field of View radius in radians": the inverse tangent. *)
Definition ViewScalingFactorToFov (this : Projector.state MVT) (vsf : R) : R :=
  atan vsf.

#[export] Instance implements : Projector.variant MVT := {|
  Projector.GetMaxFov := GetMaxFov;
  Projector.Forward := Forward;
  Projector.Backward := Backward;
  Projector.DeltaZoom := fun _ => DeltaZoom_body;
  Projector.FovToViewScalingFactor := FovToViewScalingFactor;
  Projector.ViewScalingFactorToFov := ViewScalingFactorToFov
|}.

End Members.

End ProjectorPerspective.

(** ** Units of the field of view *)



(** ** Double precision *)

(** The C++ type [double]: IEEE 754 binary64. *)
Module Float64.

Definition prec : Z := 53.
Definition emax : Z := 1024.

Definition float : Type := spec_float.

Definition of_int (z : Z) : float := binary_normalize prec emax z 0 false.


(** [a + b] and [a * b], rounded to nearest even. *)
Definition add (a b : float) : float := SFadd prec emax a b.
Definition mul (a b : float) : float := SFmul prec emax a b.

Definition is_finite (f : float) : bool := Float32.is_finite f.

(** The real number a finite [double] denotes: the value of a binary
    floating-point datum does not depend on its format. *)
Definition to_R (f : float) : R := Float32.to_R f.

End Float64.

Module Double.

(** [glm::dvec3], [glm::dvec4] and [glm::dmat4] with binary64
    components. *)
Record dvec3 : Type :=
  mk_dvec3 { x : Float64.float; y : Float64.float; z : Float64.float }.

Record dvec4 : Type := mk_dvec4 {
  x4 : Float64.float; y4 : Float64.float;
  z4 : Float64.float; w4 : Float64.float
}.

Record dmat4 : Type := mk_dmat4 {
  col0 : dvec4; col1 : dvec4; col2 : dvec4; col3 : dvec4
}.

(** [c * s], a column times a scalar, and [a + b] on columns. *)
Definition scale (c : dvec4) (s : Float64.float) : dvec4 :=
  mk_dvec4 (Float64.mul (x4 c) s) (Float64.mul (y4 c) s)
           (Float64.mul (z4 c) s) (Float64.mul (w4 c) s).

Definition add (a b : dvec4) : dvec4 :=
  mk_dvec4 (Float64.add (x4 a) (x4 b)) (Float64.add (y4 a) (y4 b))
           (Float64.add (z4 a) (z4 b)) (Float64.add (w4 a) (w4 b)).

(** [m * v] as glm computes it: the four columns scaled by the
    components of [v], added in pairs. *)
Definition mat_mul_vec (m : dmat4) (v : dvec4) : dvec4 :=
  add (add (scale (col0 m) (x4 v)) (scale (col1 m) (y4 v)))
      (add (scale (col2 m) (z4 v)) (scale (col3 m) (w4 v))).




End Double.





Module Mat4TransformDouble.

(** Modelled from the spec: the body of [Mat4Transform::Forward] is
    not in the header.  "Forward multiplies vector by matrix", here in
    double precision: the matrix times [glm::dvec4(v, 1)], of which
    the first three components are kept. *)
Definition Forward (m : Double.dmat4) (v : Double.dvec3) : Double.dvec3 :=
  let r := Double.mat_mul_vec m
             (Double.mk_dvec4 (Double.x v) (Double.y v) (Double.z v)
                (Float64.of_int 1)) in
  Double.mk_dvec3 (Double.x4 r) (Double.y4 r) (Double.z4 r).

End Mat4TransformDouble.

(** ** Sample values *)

Definition origin3 : dvec3 := mk_dvec3 0 0 0.




(** ** Comparison and sample projectors for the inline members *)

(** [a <= b] on [float], as the C++ operator compares. *)
Definition float_leb (a b : Float32.float) : bool := SFleb a b.

(** Two parameter blocks with the same viewport rectangle that differ
    in every other field. *)
Definition wide_params : ProjectorParams :=
  {| viewport_xy_wh := mk_ivec4 10 20 640 480;
     fov := Float32.of_int 90;
     z_near := Float32.of_int 1;
     z_far := Float32.of_int 100;
     viewport_center := mk_vec2 (Float32.of_int 330) (Float32.of_int 260);
     viewport_fov_diameter := Float32.of_int 640 |}.

Definition narrow_params : ProjectorParams :=
  {| viewport_xy_wh := mk_ivec4 10 20 640 480;
     fov := Float32.of_int 30;
     z_near := Float32.of_int 2;
     z_far := Float32.of_int 50;
     viewport_center := mk_vec2 (Float32.of_int 100) (Float32.of_int 100);
     viewport_fov_diameter := Float32.of_int 480 |}.

(** Two projectors over different transform types, holding those
    blocks and different derived constants. *)
Definition wide_projector : Projector.state unit :=
  Projector.mk_state tt wide_params (Float32.of_int 5) (Float32.of_int 0).

Definition narrow_projector : Projector.state bool :=
  Projector.mk_state true narrow_params (Float32.of_int 9) (Float32.of_int (-1)).

(** * Properties *)

Unset Implicit Arguments.

(** ** Conversions of the integer literals *)

Ltac float_const :=
  split; [ reflexivity
         | unfold Float32.to_R; cbv - [IZR Rdiv Ropp]; lra ].

Lemma float_0 : Float32.represents (Float32.of_int 0) 0.
Proof. float_const. Qed.

Lemma float_60 : Float32.represents (Float32.of_int 60) 60.
Proof. float_const. Qed.

Lemma float_120 : Float32.represents (Float32.of_int 120) 120.
Proof. float_const. Qed.

Lemma float_128 : Float32.represents (Float32.of_int 128) 128.
Proof. float_const. Qed.

(** ** Matrices *)





(** ** Lengths *)

Lemma sum_squares_nonneg (a b c : R) : 0 <= a * a + b * b + c * c.
Proof. nra. Qed.

Lemma length3_zero_components (v : dvec3) :
  length3 v = 0 -> dx v = 0 /\ dy v = 0 /\ dz v = 0.
Proof.
  unfold length3; intros H.
  apply sqrt_eq_0 in H; [ | apply sum_squares_nonneg ].
  repeat split; nra.
Qed.



Lemma length3_origin : length3 origin3 = 0.
Proof.
  unfold length3, origin3; simpl.
  replace (0 * 0 + 0 * 0 + 0 * 0) with 0 by ring. apply sqrt_0.
Qed.



(** ** Mat4Transform *)









(** ** ProjectorPerspective *)





(** ** Inline accessors *)

(** The accessors of the viewport rectangle and of the model-view
    transform return the member they name, for every projector. *)
Lemma accessors_return_members (MVT : Type) (this : Projector.state MVT) :
  Projector.GetViewport this = Some (viewport_xy_wh (Projector.params_ this)) /\
  Projector.GetViewportPosX this
    = Some (ix (viewport_xy_wh (Projector.params_ this))) /\
  Projector.GetViewportPosY this
    = Some (iy (viewport_xy_wh (Projector.params_ this))) /\
  Projector.GetViewportWidth this
    = Some (iz (viewport_xy_wh (Projector.params_ this))) /\
  Projector.GetViewportHeight this
    = Some (iw (viewport_xy_wh (Projector.params_ this))) /\
  Projector.GetModelViewTransform this
    = Some (Projector.model_view_transform_ this).
Proof. repeat split. Qed.

(** A body returns a value exactly when it holds a [return]. *)
Lemma run_body_None_iff {S A : Type} (b : list (stmt S A)) (this : S) :
  run_body b this = None <->
  Forall (fun s => match s with SReturn _ => False | SExpr _ => True end) b.
Proof.
  induction b as [ | s rest IH ]; simpl.
  - split; [ constructor | reflexivity ].
  - destruct s as [ B e | e ].
    + rewrite IH. split.
      * intros H. constructor; [ exact I | exact H ].
      * intros H. inversion H; assumption.
    + split; [ discriminate | ].
      intros H. inversion H; contradiction.
Qed.

(** * The properties of the specification *)

(** ** Data model and inline accessors *)

(** C10: a default-constructed [ProjectorParams] has
    [viewport_xy_wh = (0, 0, 256, 256)], [fov = 60], [z_near = 0],
    [z_far = 0], [viewport_center = (128, 128)] and
    [viewport_fov_diameter = 0]; [z_near] equals [z_far], so
    [z_near < z_far] does not hold for it. *)
Theorem ProjectorParams_default_values :
  viewport_xy_wh ProjectorParams_default = mk_ivec4 0 0 256 256 /\
  Float32.represents (fov ProjectorParams_default) 60 /\
  Float32.represents (z_near ProjectorParams_default) 0 /\
  Float32.represents (z_far ProjectorParams_default) 0 /\
  Float32.represents (fx (viewport_center ProjectorParams_default)) 128 /\
  Float32.represents (fy (viewport_center ProjectorParams_default)) 128 /\
  Float32.represents (viewport_fov_diameter ProjectorParams_default) 0 /\
  Float32.eqb (z_near ProjectorParams_default)
              (z_far ProjectorParams_default) = true /\
  Float32.ltb (z_near ProjectorParams_default)
              (z_far ProjectorParams_default) = false.
Proof.
  split; [ reflexivity | ].
  split; [ exact float_60 | ].
  split; [ exact float_0 | ].
  split; [ exact float_0 | ].
  split; [ exact float_128 | ].
  split; [ exact float_128 | ].
  split; [ exact float_0 | ].
  split; reflexivity.
Qed.

(** C8: [ProjectorPerspective::GetMaxFov()] returns exactly 120, for
    every instance and whatever the state of its parameters. *)
Theorem GetMaxFov_returns_120 (MVT : Type) (this : Projector.state MVT) :
  ProjectorPerspective.GetMaxFov this = Some (Float32.of_int 120) /\
  Float32.represents (Float32.of_int 120) 120.
Proof.
  split; [ reflexivity | exact float_120 ].
Qed.

(** C2: [GetFov()] is specified to return the [fov] field of the
    projector's [ProjectorParams].  Its body evaluates [params_.fov]
    as an expression statement and has no [return]: for every
    projector, control reaches the end of the function and no value is
    returned, while the neighbouring accessors do return their field.
    On a freshly constructed projector, whose [fov] is 60, the call
    does not yield 60. *)
Theorem GetFov_returns_no_value (MVT : Type) (this : Projector.state MVT) :
  Projector.GetFov this = None /\
  Projector.GetViewportPosX this
    = Some (ix (viewport_xy_wh (Projector.params_ this))) /\
  Projector.GetViewportWidth this
    = Some (iz (viewport_xy_wh (Projector.params_ this))) /\
  Projector.GetFov (Projector.new (Projector.model_view_transform_ this))
    <> Some (fov (Projector.params_
                    (Projector.new (Projector.model_view_transform_ this)))) /\
  Float32.represents
    (fov (Projector.params_
            (Projector.new (Projector.model_view_transform_ this)))) 60.
Proof.
  split; [ reflexivity | ].
  split; [ reflexivity | ].
  split; [ reflexivity | ].
  split; [ | exact float_60 ].
  unfold Projector.GetFov; simpl. discriminate.
Qed.

(** ** ModelViewTransform *)




(** ** ProjectorPerspective *)



(** C7: the projector's [Forward] applied to a zero-length direction
    vector returns [valid = false]. *)
Theorem Forward_zero_length_is_invalid
    (MVT : Type) (failed : dvec3 -> dvec3)
    (this : Projector.state MVT) (v : dvec3) :
  length3 v = 0 ->
  snd (ProjectorPerspective.Forward failed this v) = false.
Proof.
  intros H.
  destruct (length3_zero_components v H) as (_ & _ & Hz).
  unfold ProjectorPerspective.Forward.
  destruct (Rlt_dec (dz v) 0) as [C | _]; simpl.
  - lra.
  - reflexivity.
Qed.

Lemma Forward_zero_length_is_invalid_witness :
  length3 origin3 = 0 /\
  snd (ProjectorPerspective.Forward (fun v => v) (Projector.new tt) origin3)
  = false.
Proof.
  split; [ exact length3_origin | ].
  exact (Forward_zero_length_is_invalid unit (fun v => v) (Projector.new tt)
           origin3 length3_origin).
Defined.

(** * Further properties of the inline members *)

(** X1: for every projector, [GetViewport()] returns a rectangle and
    the four scalar accessors return its components: the position from
    [x] and [y], the width from [z] and the height from [w]. *)
Theorem viewport_accessors_are_components
    (MVT : Type) (this : Projector.state MVT) :
  exists r : ivec4,
    Projector.GetViewport this = Some r /\
    Projector.GetViewportPosX this = Some (ix r) /\
    Projector.GetViewportPosY this = Some (iy r) /\
    Projector.GetViewportWidth this = Some (iz r) /\
    Projector.GetViewportHeight this = Some (iw r).
Proof.
  exists (viewport_xy_wh (Projector.params_ this)).
  repeat split.
Qed.

(** X2: two projectors that report the same viewport rectangle report
    the same position, width and height, whatever their transforms,
    their other parameters and their derived constants are. *)
Theorem same_viewport_same_scalars
    (MVT1 MVT2 : Type)
    (a : Projector.state MVT1) (b : Projector.state MVT2) :
  Projector.GetViewport a = Projector.GetViewport b ->
  Projector.GetViewportPosX a = Projector.GetViewportPosX b /\
  Projector.GetViewportPosY a = Projector.GetViewportPosY b /\
  Projector.GetViewportWidth a = Projector.GetViewportWidth b /\
  Projector.GetViewportHeight a = Projector.GetViewportHeight b.
Proof.
  intros H.
  destruct (accessors_return_members MVT1 a) as (Ha & Hax & Hay & Haw & Hah & _).
  destruct (accessors_return_members MVT2 b) as (Hb & Hbx & Hby & Hbw & Hbh & _).
  assert (E : viewport_xy_wh (Projector.params_ a)
              = viewport_xy_wh (Projector.params_ b)) by congruence.
  rewrite Hax, Hay, Haw, Hah, Hbx, Hby, Hbw, Hbh, E.
  repeat split.
Qed.

Lemma same_viewport_same_scalars_witness :
  Projector.GetViewport wide_projector = Projector.GetViewport narrow_projector /\
  Projector.GetViewportPosX wide_projector
    = Projector.GetViewportPosX narrow_projector /\
  Projector.GetViewportPosY wide_projector
    = Projector.GetViewportPosY narrow_projector /\
  Projector.GetViewportWidth wide_projector
    = Projector.GetViewportWidth narrow_projector /\
  Projector.GetViewportHeight wide_projector
    = Projector.GetViewportHeight narrow_projector.
Proof.
  split; [ reflexivity | ].
  exact (same_viewport_same_scalars unit bool wide_projector narrow_projector
           eq_refl).
Defined.

(** X3: the default viewport rectangle has a positive width and
    height, and the default optical center is exactly its middle:
    position plus half of the size, in both directions. *)
Theorem default_center_is_middle_of_default_viewport :
  (0 < iz (viewport_xy_wh ProjectorParams_default))%Z /\
  (0 < iw (viewport_xy_wh ProjectorParams_default))%Z /\
  Float32.is_finite (fx (viewport_center ProjectorParams_default)) = true /\
  Float32.is_finite (fy (viewport_center ProjectorParams_default)) = true /\
  Float32.to_R (fx (viewport_center ProjectorParams_default))
  = IZR (ix (viewport_xy_wh ProjectorParams_default))
    + IZR (iz (viewport_xy_wh ProjectorParams_default)) / 2 /\
  Float32.to_R (fy (viewport_center ProjectorParams_default))
  = IZR (iy (viewport_xy_wh ProjectorParams_default))
    + IZR (iw (viewport_xy_wh ProjectorParams_default)) / 2.
Proof.
  split; [ reflexivity | ].
  split; [ reflexivity | ].
  split; [ reflexivity | ].
  split; [ reflexivity | ].
  cbn [ProjectorParams_default viewport_center viewport_xy_wh fx fy
       ix iy iz iw].
  destruct float_128 as [_ ->].
  split; lra.
Qed.

(** X4: the default FOV is one that every perspective projector
    accepts: it is above 0 and not above what [GetMaxFov()] returns,
    under the comparisons of [float]. *)
Theorem default_fov_within_perspective_maximum
    (MVT : Type) (this : Projector.state MVT) :
  exists maxfov : Float32.float,
    ProjectorPerspective.GetMaxFov this = Some maxfov /\
    Float32.ltb (Float32.of_int 0) (fov ProjectorParams_default) = true /\
    float_leb (fov ProjectorParams_default) maxfov = true /\
    0 < Float32.to_R (fov ProjectorParams_default) <= Float32.to_R maxfov.
Proof.
  exists (Float32.of_int 120).
  split; [ reflexivity | ].
  split; [ reflexivity | ].
  split; [ reflexivity | ].
  cbn [ProjectorParams_default fov].
  destruct float_60 as [_ ->]. destruct float_120 as [_ ->]. lra.
Qed.
